(** * Registration and invocation core of the Plex MCP server

    A shallow embedding of [app/utils/wrappers.py]: the decorator composer
    [apply_decorators], the instrumentation wrapper [log_function_call], the
    error-normalizing wrapper [handle_api_errors], their composition
    [log_and_handle_errors], and the pending registration queue
    [PendingMCPComponents] together with the metadata decorators that feed
    it. *)

From Stdlib Require Import List String ZArith Bool DecimalString.
Import ListNotations.
Open Scope string_scope.

Set Implicit Arguments.

(** ** Python data *)

(** The plain data handlers take and return. *)
#[warnings="-register-all"]
Inductive value : Type :=
| VNone
| VBool (b : bool)
| VInt (z : Z)
| VStr (s : string)
| VList (items : list value)
| VDict (items : list (string * value)).

(** Truth value of a datum, as used by [x or y]. *)
Definition truthy (v : value) : bool :=
  match v with
  | VNone => false
  | VBool b => b
  | VInt z => negb (Z.eqb z 0)
  | VStr s => negb (String.eqb s "")
  | VList items => match items with [] => false | _ => true end
  | VDict items => match items with [] => false | _ => true end
  end.

Definition py_or (a b : value) : value := if truthy a then a else b.

(** Positional and keyword arguments of a call, [*args, **kwargs]. *)
Record arguments : Type := {
  args : list value;
  kwargs : list (string * value)
}.

Definition no_arguments : arguments := {| args := []; kwargs := [] |}.

(** [needle in hay] on two strings: substring test. *)
Fixpoint contains (needle hay : string) : bool :=
  String.prefix needle hay
  || match hay with
     | EmptyString => false
     | String _ rest => contains needle rest
     end.

(** Decimal text of an integer, as an f-string renders it. *)
Definition str_of_int (z : Z) : string := NilZero.string_of_int (Z.to_int z).

(** ** Exceptions *)

(** The exception classes the except clauses of [handle_api_errors] tell
    apart.  [ConnectError] and [TimeoutException] carry the URL of their
    request ([e.request.url]); [HTTPStatusError] the status line of its
    response; the others the text [str(e)].  [PyException] is any other
    subclass of [Exception]; [PyBaseException] an exception outside
    [Exception] (KeyboardInterrupt, SystemExit, CancelledError). *)
Inductive exn : Type :=
| ConnectError (request_url : string)
| TimeoutException (request_url : string)
| HTTPStatusError (status_code : Z) (reason_phrase : string)
| RequestError (text : string)
| PyException (cls : string) (text : string)
| PyBaseException (cls : string) (text : string).

(** [isinstance(e, Exception)]. *)
Definition is_Exception (e : exn) : bool :=
  match e with
  | PyBaseException _ _ => false
  | _ => true
  end.

Inductive outcome (A : Type) : Type :=
| Ok (a : A)
| Raised (e : exn).

Arguments Ok {A} a.
Arguments Raised {A} e.

(** ** State and error monad *)

Definition SE (S A : Type) : Type := S -> outcome A * S.

Definition ret {S A : Type} (a : A) : SE S A := fun s => (Ok a, s).

Definition raise {S A : Type} (e : exn) : SE S A := fun s => (Raised e, s).

Definition bind {S A B : Type} (m : SE S A) (k : A -> SE S B) : SE S B :=
  fun s =>
    match m s with
    | (Ok a, s') => k a s'
    | (Raised e, s') => (Raised e, s')
    end.

Declare Scope se_scope.
Delimit Scope se_scope with se.
Notation "x <- m ;; k" := (bind m (fun x => k))
  (at level 61, m at next level, right associativity) : se_scope.
Notation "m ;; k" := (bind m (fun _ => k))
  (at level 61, right associativity) : se_scope.
Open Scope se_scope.

(** [try: body finally: cleanup].  The cleanup runs on both exits; the
    outcome of the body stands unless the cleanup itself raises. *)
Definition try_finally {S A : Type} (body : SE S A) (cleanup : SE S unit)
  : SE S A :=
  fun s =>
    match body s with
    | (r, s') =>
        match cleanup s' with
        | (Ok _, s'') => (r, s'')
        | (Raised e, s'') => (Raised e, s'')
        end
    end.

(** [try: body except ...: handler].  An exception no clause matches is
    raised again by the handler itself. *)
Definition try_except {S A : Type} (body : SE S A) (handler : exn -> SE S A)
  : SE S A :=
  fun s =>
    match body s with
    | (Ok a, s') => (Ok a, s')
    | (Raised e, s') => handler e s'
    end.

(** ** Logging and the clock *)

(** The text of a diagnostic record.  [Calling] and [Took] are the two
    f-strings of [log_function_call], kept structured; [Text] is anything a
    handler logs on its own. *)
Inductive message : Type :=
| Calling (is_async : bool) (fname : string) (a : arguments)
| Took (is_async : bool) (fname : string) (duration : Z)
| Text (s : string).

Inductive severity : Type := DEBUG | INFO | WARNING | ERROR.

Record record : Type := {
  logger : string;
  level : severity;
  msg : message
}.

(** What a running handler can see and change: the wall clock and the
    diagnostic log. *)
Record hworld : Type := {
  now : Z;
  log : list record
}.

Definition datetime_now : SE hworld Z := fun w => (Ok (now w), w).

(** [logging.getLogger(name).debug(m)]. *)
Definition debug (name : string) (m : message) : SE hworld unit :=
  fun w =>
    (Ok tt,
     {| now := now w;
        log := log w ++ [{| logger := name; level := DEBUG; msg := m |}] |}).

(** ** Function objects *)

(** What [inspect.signature(f).return_annotation] yields: a string
    annotation, or an object that is not a string (a class such as [str],
    or [Signature.empty]). *)
Inductive annotation : Type :=
| AnnText (s : string)
| AnnClass (cls : string).

(** A function object.  [return_annotation] is [None] when
    [inspect.signature] cannot compute a signature.  [body] is what a call
    does (for a coroutine function: what awaiting the call does). *)
Record handler : Type := {
  __module__ : string;
  __name__ : string;
  is_coroutine : bool;
  return_annotation : option annotation;
  body : arguments -> SE hworld value
}.

(** Anything a decorator may be handed or may return: a function, or a
    plain datum. *)
Inductive object : Type :=
| Fn (h : handler)
| Val (v : value).

(** [asyncio.iscoroutinefunction(func)]. *)
Definition iscoroutinefunction (func : object) : bool :=
  match func with
  | Fn h => is_coroutine h
  | Val _ => false
  end.

(** [f"{func.__module__}:{func.__name__}"] and [func.__name__]; a plain
    datum has neither attribute. *)
Definition qualified_name (func : object) : SE hworld (string * string) :=
  match func with
  | Fn h => ret (__module__ h ++ ":" ++ __name__ h, __name__ h)
  | Val _ => raise (PyException "AttributeError" "object has no attribute '__module__'")
  end.

(** Calling [func] with the given arguments, awaited when [func] is a
    coroutine function. *)
Definition call (func : object) (a : arguments) : SE hworld value :=
  match func with
  | Fn h => body h a
  | Val _ => raise (PyException "TypeError" "object is not callable")
  end.

(** [inspect.signature(func).return_annotation]. *)
Definition signature_return_annotation (func : object) : SE hworld annotation :=
  match func with
  | Fn h =>
      match return_annotation h with
      | Some ann => ret ann
      | None => raise (PyException "TypeError" "no signature found")
      end
  | Val _ => raise (PyException "TypeError" "object is not a callable object")
  end.

(** [@wraps(func)] on a wrapper defined in this module: the wrapper takes
    the name and module of [func] where it has them, and its signature is
    the signature of [func]. *)
Definition wraps (func : object) (own_name : string) (is_async : bool)
  (wrapper : arguments -> SE hworld value) : handler :=
  match func with
  | Fn h =>
      {| __module__ := __module__ h;
         __name__ := __name__ h;
         is_coroutine := is_async;
         return_annotation := return_annotation h;
         body := wrapper |}
  | Val _ =>
      {| __module__ := "app.utils.wrappers";
         __name__ := own_name;
         is_coroutine := is_async;
         return_annotation := None;
         body := wrapper |}
  end.

(** ** apply_decorators *)

(** The loop [for deco in ds: func = deco(func)]. *)
Fixpoint decorate {S F : Type} (ds : list (F -> SE S F)) (func : F) : SE S F :=
  match ds with
  | [] => ret func
  | deco :: rest => func' <- deco func ;; decorate rest func'
  end.

Definition apply_decorators {S F : Type} (decorators : list (F -> SE S F))
  : F -> SE S F :=
  fun func => decorate (rev decorators) func.

(** A decorator that only builds its result. *)
Definition pure_decorator {S F : Type} (d : F -> F) : F -> SE S F :=
  fun func => ret (d func).

(** ** log_function_call *)

Definition log_function_call (func : object) : SE hworld object :=
  if iscoroutinefunction func then
    let async_wrapper (a : arguments) : SE hworld value :=
      q <- qualified_name func ;;
      debug (fst q) (Calling true (snd q) a) ;;
      start <- datetime_now ;;
      try_finally (call func a)
        (finish <- datetime_now ;;
         debug (fst q) (Took true (snd q) (finish - start)))
    in
    ret (Fn (wraps func "async_wrapper" true async_wrapper))
  else
    let sync_wrapper (a : arguments) : SE hworld value :=
      q <- qualified_name func ;;
      debug (fst q) (Calling false (snd q) a) ;;
      start <- datetime_now ;;
      try_finally (call func a)
        (finish <- datetime_now ;;
         debug (fst q) (Took false (snd q) (finish - start)))
    in
    ret (Fn (wraps func "sync_wrapper" false sync_wrapper)).

(** ** handle_api_errors *)

(** [format_error]: the membership tests are substring tests on a string
    annotation and raise TypeError on an annotation that is a class. *)
Definition format_error {S : Type} (return_type : annotation) (m : string)
  : SE S value :=
  match return_type with
  | AnnText s =>
      if contains "Dict" s then ret (VDict [("error", VStr m)])
      else if contains "List" s then ret (VList [VDict [("error", VStr m)]])
      else ret (VStr m)
  | AnnClass _ =>
      raise (PyException "TypeError" "argument of type 'type' is not iterable")
  end.

(** The except clauses shared by both wrappers, in source order. *)
Definition except_clauses (return_type : annotation) (e : exn)
  : SE hworld value :=
  match e with
  | ConnectError url =>
      format_error return_type
        ("Connection error: Cannot connect to resource at " ++ url)
  | TimeoutException url =>
      format_error return_type
        ("Timeout error: Resource at " ++ url ++ " did not respond in time")
  | HTTPStatusError status_code reason_phrase =>
      format_error return_type
        ("HTTP error: Server responded with " ++ str_of_int status_code
         ++ " - " ++ reason_phrase)
  | RequestError text => format_error return_type ("Request error: " ++ text)
  | PyException _ text => format_error return_type ("Unexpected error: " ++ text)
  | PyBaseException _ _ => raise e
  end.

Definition handle_api_errors (func : object) : SE hworld object :=
  if iscoroutinefunction func then
    let async_wrapper (a : arguments) : SE hworld value :=
      return_type <- signature_return_annotation func ;;
      try_except (call func a) (except_clauses return_type)
    in
    ret (Fn (wraps func "async_wrapper" true async_wrapper))
  else
    let sync_wrapper (a : arguments) : SE hworld value :=
      return_type <- signature_return_annotation func ;;
      try_except (call func a) (except_clauses return_type)
    in
    (* return cast(FuncType, sync_wrapper()) *)
    v <- sync_wrapper no_arguments ;;
    ret (Val v).

(** ** log_and_handle_errors *)

Definition log_and_handle_errors (func : object) : SE hworld object :=
  apply_decorators [handle_api_errors; log_function_call] func.

(** ** Metadata attached to function objects *)

(** The object stored in a [_tool_metadata], [_resource_metadata],
    [_prompt_metadata] or [_custom_route_metadata] attribute: a dict, or an
    object carrying attributes. *)
Inductive metadata : Type :=
| MetaDict (items : list (string * value))
| MetaObject (attrs : list (string * value)).

Fixpoint lookup (key : string) (l : list (string * value)) : option value :=
  match l with
  | [] => None
  | (k, v) :: rest => if String.eqb k key then Some v else lookup key rest
  end.

(** Attribute access [md.attr].  A dict has items, not attributes of these
    names. *)
Definition getattr {S : Type} (md : metadata) (attr : string) : SE S value :=
  match md with
  | MetaDict _ =>
      raise (PyException "AttributeError"
               ("'dict' object has no attribute '" ++ attr ++ "'"))
  | MetaObject attrs =>
      match lookup attr attrs with
      | Some v => ret v
      | None =>
          raise (PyException "AttributeError"
                   ("object has no attribute '" ++ attr ++ "'"))
      end
  end.

(** A declared function: the function object and the metadata attributes
    set on it ([None]: the attribute is absent, [hasattr] is false), as they
    are when the function is handed to the queue. *)
Record component : Type := {
  func : handler;
  _tool_metadata : option metadata;
  _resource_metadata : option metadata;
  _prompt_metadata : option metadata;
  _custom_route_metadata : option metadata
}.

Definition plain (f : handler) : component :=
  {| func := f;
     _tool_metadata := None;
     _resource_metadata := None;
     _prompt_metadata := None;
     _custom_route_metadata := None |}.

(** ** The hosting server *)

(** The registration entry points of the server with their keyword
    arguments. *)
Inductive entry_point : Type :=
| tool (name description annotations : value)
| resource (uri name description mime_type : value)
| prompt (name description tags : value)
| custom_route (path methods name include_in_schema : value).

(** A server instance: its identity, and which registration requests it
    refuses by raising. *)
Record FastMCP : Type := {
  server_id : nat;
  refuses : entry_point -> option exn
}.

(** Everything outside the queue: the handlers' world, the calls made to
    servers' entry points, and what servers have been handed to register. *)
Record env : Type := {
  world : hworld;
  invoked : list (nat * entry_point);
  registered : list (nat * entry_point * object)
}.

Definition lift {A : Type} (m : SE hworld A) : SE env A :=
  fun e =>
    match m (world e) with
    | (r, w) =>
        (r, {| world := w; invoked := invoked e; registered := registered e |})
    end.

(** The decorator an entry point returns: applied to an object, it
    registers it and returns it. *)
Definition registrar (app : FastMCP) (ep : entry_point) (o : object)
  : SE env object :=
  fun e =>
    (Ok o,
     {| world := world e;
        invoked := invoked e;
        registered := registered e ++ [(server_id app, ep, o)] |}).

(** A call [app.tool(...)], [app.resource(...)] or [app.prompt(...)]. *)
Definition entry (app : FastMCP) (ep : entry_point)
  : SE env (object -> SE env object) :=
  fun e =>
    let e' := {| world := world e;
                 invoked := invoked e ++ [(server_id app, ep)];
                 registered := registered e |} in
    match refuses app ep with
    | Some err => (Raised err, e')
    | None => (Ok (registrar app ep), e')
    end.

(** ** PendingMCPComponents *)

Record PendingMCPComponents : Type := {
  components : list component;
  _mcpApp : option FastMCP
}.

Definition __init__ : PendingMCPComponents :=
  {| components := []; _mcpApp := None |}.

(** The state a method runs in: its object and everything outside. *)
Record mstate : Type := {
  self : PendingMCPComponents;
  outside : env
}.

Definition outer {A : Type} (m : SE env A) : SE mstate A :=
  fun st =>
    match m (outside st) with
    | (r, e) => (r, {| self := self st; outside := e |})
    end.

Definition get_self : SE mstate PendingMCPComponents :=
  fun st => (Ok (self st), st).

Definition set_mcpApp (app : option FastMCP) : SE mstate unit :=
  fun st =>
    (Ok tt,
     {| self := {| components := components (self st); _mcpApp := app |};
        outside := outside st |}).

Definition set_components (l : list component) : SE mstate unit :=
  fun st =>
    (Ok tt,
     {| self := {| components := l; _mcpApp := _mcpApp (self st) |};
        outside := outside st |}).

(** The loop [for x in l: f(x)]. *)
Fixpoint for_each {S A : Type} (l : list A) (f : A -> SE S unit) : SE S unit :=
  match l with
  | [] => ret tt
  | x :: rest => f x ;; for_each rest f
  end.

Definition _process_component (c : component) : SE mstate (option component) :=
  s <- get_self ;;
  match _mcpApp s with
  | None => ret (Some c)
  | Some app =>
      match _tool_metadata c, _resource_metadata c, _prompt_metadata c with
      | Some md, _, _ =>
          name <- getattr md "name" ;;
          description <- getattr md "description" ;;
          annotations <- getattr md "annotations" ;;
          register <- outer (entry app (tool name description annotations)) ;;
          outer (apply_decorators
                   [register; fun f => lift (log_and_handle_errors f)]
                   (Fn (func c))) ;;
          ret None
      | None, Some md, _ =>
          uri <- getattr md "uri" ;;
          name <- getattr md "name" ;;
          description <- getattr md "description" ;;
          mime_type <- getattr md "mime_type" ;;
          register <- outer (entry app (resource uri name description mime_type)) ;;
          outer (apply_decorators
                   [register; fun f => lift (log_and_handle_errors f)]
                   (Fn (func c))) ;;
          ret None
      | None, None, Some md =>
          name <- getattr md "name" ;;
          description <- getattr md "description" ;;
          tags <- getattr md "tags" ;;
          register <- outer (entry app (prompt name description tags)) ;;
          outer (apply_decorators
                   [register; fun f => lift (log_and_handle_errors f)]
                   (Fn (func c))) ;;
          ret None
      | None, None, None => ret None
      end
  end.

Definition process (app : FastMCP) : SE mstate unit :=
  set_mcpApp (Some app) ;;
  s <- get_self ;;
  let snapshot := components s in
  set_components [] ;;
  for_each snapshot (fun c => _process_component c ;; ret tt).

Definition add (f : component) : SE mstate component :=
  processed <- _process_component f ;;
  match processed with
  | None => ret f
  | Some _ =>
      s <- get_self ;;
      set_components (components s ++ [f]) ;;
      ret f
  end.

Definition get_pending : SE mstate (list component) :=
  s <- get_self ;; ret (components s).

(** ** Module level: the singleton and the metadata decorators *)

Record program : Type := {
  _instance : option PendingMCPComponents;
  environment : env
}.

(** [PendingMCPComponents.instance()]: creates the singleton on first
    use. *)
Definition instance : SE program PendingMCPComponents :=
  fun p =>
    match _instance p with
    | None => (Ok __init__, {| _instance := Some __init__; environment := environment p |})
    | Some s => (Ok s, p)
    end.

(** A method call on the singleton, [PendingMCPComponents.instance().m(...)]. *)
Definition on_instance {A : Type} (m : SE mstate A) : SE program A :=
  fun p =>
    match instance p with
    | (Ok s, p') =>
        match m {| self := s; outside := environment p' |} with
        | (r, st) => (r, {| _instance := Some (self st); environment := outside st |})
        end
    | (Raised e, p') => (Raised e, p')
    end.

Definition add_pending (fn : component) : SE program component :=
  on_instance (add fn) ;;
  ret fn.

Definition opt (o : option string) : value :=
  match o with
  | Some s => VStr s
  | None => VNone
  end.

(** The attribute assignments [func._..._metadata = {...}] of the four
    metadata decorators. *)
Definition set_tool_metadata (name description : string) (annotations : value)
  (f : component) : component :=
  {| func := func f;
     _tool_metadata :=
       Some (MetaDict [("name", VStr name);
                       ("description", VStr description);
                       ("annotations", py_or annotations (VDict []))]);
     _resource_metadata := _resource_metadata f;
     _prompt_metadata := _prompt_metadata f;
     _custom_route_metadata := _custom_route_metadata f |}.

Definition set_resource_metadata (uri : string)
  (name description mime_type : option string) (f : component) : component :=
  {| func := func f;
     _tool_metadata := _tool_metadata f;
     _resource_metadata :=
       Some (MetaDict [("uri", VStr uri);
                       ("name", opt name);
                       ("description", opt description);
                       ("mime_type", opt mime_type)]);
     _prompt_metadata := _prompt_metadata f;
     _custom_route_metadata := _custom_route_metadata f |}.

Definition set_prompt_metadata (name description : option string)
  (f : component) : component :=
  {| func := func f;
     _tool_metadata := _tool_metadata f;
     _resource_metadata := _resource_metadata f;
     _prompt_metadata :=
       Some (MetaDict [("name", opt name); ("description", opt description)]);
     _custom_route_metadata := _custom_route_metadata f |}.

Definition set_custom_route_metadata (path : string) (methods : list string)
  (name : option string) (include_in_schema : bool) (f : component)
  : component :=
  {| func := func f;
     _tool_metadata := _tool_metadata f;
     _resource_metadata := _resource_metadata f;
     _prompt_metadata := _prompt_metadata f;
     _custom_route_metadata :=
       Some (MetaDict [("path", VStr path);
                       ("methods", VList (map VStr methods));
                       ("name", opt name);
                       ("include_in_schema", VBool include_in_schema)]) |}.

Definition tool_metadata (name description : string) (annotations : value)
  (f : component) : SE program component :=
  add_pending (set_tool_metadata name description annotations f).

Definition resource_metadata (uri : string)
  (name description mime_type : option string) (f : component)
  : SE program component :=
  add_pending (set_resource_metadata uri name description mime_type f).

Definition prompt_metadata (name description : option string)
  (f : component) : SE program component :=
  add_pending (set_prompt_metadata name description f).

Definition custom_route_metadata (path : string) (methods : list string)
  (name : option string) (include_in_schema : bool) (f : component)
  : SE program component :=
  add_pending (set_custom_route_metadata path methods name include_in_schema f).

(** * Vocabulary of the statements

    Sample handlers, servers and declarations, and the auxiliary notions
    the properties below are stated with. *)

(** Two wrappers on terms: each writes its name around its argument. *)
Definition around (tag : string) (f : string) : string :=
  tag ++ "(" ++ f ++ ")".

Definition started : hworld := {| now := 0; log := [] |}.

Definition note (s : string) : record :=
  {| logger := "app.modules.client"; level := INFO; msg := Text s |}.

(** A handler that logs that it ran, takes five clock units and then
    returns or raises as told. *)
Definition sample (name : string) (is_async : bool) (ann : annotation)
  (result : outcome value) : handler :=
  {| __module__ := "app.modules.client";
     __name__ := name;
     is_coroutine := is_async;
     return_annotation := Some ann;
     body := fun _ w =>
       (result, {| now := now w + 5; log := log w ++ [note "ran"] |}) |}.

Definition plex_url : string := "http://plex:32400".

Definition emit (r : record) (w : hworld) : hworld :=
  {| now := now w; log := log w ++ [r] |}.

Definition pre_record (h : handler) (a : arguments) : record :=
  {| logger := __module__ h ++ ":" ++ __name__ h;
     level := DEBUG;
     msg := Calling (is_coroutine h) (__name__ h) a |}.

Definition post_record (h : handler) (duration : Z) : record :=
  {| logger := __module__ h ++ ":" ++ __name__ h;
     level := DEBUG;
     msg := Took (is_coroutine h) (__name__ h) duration |}.

(** The value [format_error] returns on a string annotation. *)
Definition formatted (s m : string) : value :=
  if contains "Dict" s then VDict [("error", VStr m)]
  else if contains "List" s then VList [VDict [("error", VStr m)]]
  else VStr m.

(** The message each except clause builds. *)
Definition error_message (e : exn) : string :=
  match e with
  | ConnectError url =>
      "Connection error: Cannot connect to resource at " ++ url
  | TimeoutException url =>
      "Timeout error: Resource at " ++ url ++ " did not respond in time"
  | HTTPStatusError status_code reason_phrase =>
      "HTTP error: Server responded with " ++ str_of_int status_code
      ++ " - " ++ reason_phrase
  | RequestError text => "Request error: " ++ text
  | PyException _ text => "Unexpected error: " ++ text
  | PyBaseException _ text => text
  end.

Definition failing_search : handler :=
  sample "search" true (AnnText "List[Dict[str, Any]]")
    (Raised (PyException "ValueError" "boom")).

(** The reading of C3 as it is worded: the payload follows the declared
    return shape, a mapping type, a sequence type or neither, told by the
    outermost type of the annotation. *)
Inductive shape : Type := Mapping | Sequence | Neither.

Definition declared_shape_as_worded (s : string) : shape :=
  if String.prefix "Dict" s || String.prefix "dict" s
     || String.prefix "Mapping" s
  then Mapping
  else if String.prefix "List" s || String.prefix "list" s
          || String.prefix "Sequence" s
  then Sequence
  else Neither.

Definition payload_as_worded (sh : shape) (m : string) : value :=
  match sh with
  | Mapping => VDict [("error", VStr m)]
  | Sequence => VList [VDict [("error", VStr m)]]
  | Neither => VStr m
  end.

Definition unreachable_plex : handler :=
  sample "client_list" true (AnnText "Dict[str, Any]")
    (Raised (ConnectError plex_url)).

(** A computation that leaves the queue object as it found it. *)
Definition keeps_self {A : Type} (m : SE mstate A) : Prop :=
  forall st, self (snd (m st)) = self st.

(** The forward step [process] performs on each snapshotted component. *)
Definition forward (c : component) : SE mstate unit :=
  _process_component c ;; ret tt.

(** The queue object right after [process] has recorded the server and
    emptied the list, before any forwarding. *)
Definition bound_and_cleared (app : FastMCP) (st : mstate) : mstate :=
  {| self := {| components := []; _mcpApp := Some app |};
     outside := outside st |}.

Definition quiet : env := {| world := started; invoked := []; registered := [] |}.

Definition fresh : mstate := {| self := __init__; outside := quiet |}.

Definition fresh_program : program := {| _instance := None; environment := quiet |}.

Definition plex_app : FastMCP := {| server_id := 1; refuses := fun _ => None |}.

Definition other_app : FastMCP := {| server_id := 2; refuses := fun _ => None |}.

(** The tools of [app/modules/client.py] are coroutine functions annotated
    [-> str]. *)
Definition client_tool (name : string) : handler :=
  sample name true (AnnClass "str") (Ok (VStr "{}")).

Definition declared (name : string) : component :=
  set_tool_metadata name "a tool" VNone (plain (client_tool name)).

Definition no_attribute_name : exn :=
  PyException "AttributeError" "'dict' object has no attribute 'name'".

Definition two_declared : mstate :=
  {| self := {| components := [declared "list_plex_clients";
                               declared "get_client_details"];
                _mcpApp := None |};
     outside := quiet |}.

(** The entry point a component is forwarded to when its metadata is an
    object carrying the attributes [_process_component] reads. *)
Definition entry_of (c : component) : option entry_point :=
  match _tool_metadata c, _resource_metadata c, _prompt_metadata c with
  | Some (MetaObject attrs), _, _ =>
      match lookup "name" attrs, lookup "description" attrs,
            lookup "annotations" attrs with
      | Some n, Some d, Some a => Some (tool n d a)
      | _, _, _ => None
      end
  | None, Some (MetaObject attrs), _ =>
      match lookup "uri" attrs, lookup "name" attrs,
            lookup "description" attrs, lookup "mime_type" attrs with
      | Some u, Some n, Some d, Some m => Some (resource u n d m)
      | _, _, _, _ => None
      end
  | None, None, Some (MetaObject attrs) =>
      match lookup "name" attrs, lookup "description" attrs,
            lookup "tags" attrs with
      | Some n, Some d, Some t => Some (prompt n d t)
      | _, _, _ => None
      end
  | _, _, _ => None
  end.

Definition forwarded (app : FastMCP) (ep : entry_point) (o : object)
  (st : mstate) : mstate :=
  {| self := self st;
     outside :=
       {| world := world (outside st);
          invoked := invoked (outside st) ++ [(server_id app, ep)];
          registered := registered (outside st) ++ [(server_id app, ep, o)] |} |}.

Definition forwardable (app : FastMCP) (c : component) (ep : entry_point)
  : Prop :=
  entry_of c = Some ep
  /\ is_coroutine (func c) = true
  /\ refuses app ep = None.

(** A tool whose metadata is an object with attributes. *)
Definition tool_object (name : string) : component :=
  {| func := client_tool name;
     _tool_metadata :=
       Some (MetaObject [("name", VStr name);
                         ("description", VStr "a tool");
                         ("annotations", VDict [])]);
     _resource_metadata := None;
     _prompt_metadata := None;
     _custom_route_metadata := None |}.

Definition declare_tool (name : string) : SE program component :=
  tool_metadata name "a tool" VNone (plain (client_tool name)).

Definition declare_three : SE program unit :=
  declare_tool "list_plex_clients" ;;
  declare_tool "get_client_details" ;;
  declare_tool "get_client_timelines" ;;
  ret tt.

(** The program after [process(plex_app)] on an empty queue: bound. *)
Definition bound_program : program :=
  snd (on_instance (process plex_app) fresh_program).

Definition health : handler :=
  sample "health" true (AnnText "str") (Ok (VStr "ok")).

(** * app/main.py: the PlexMCP server and the port validator *)

(** [ToolAnnotations()], no hint set. *)
Definition ToolAnnotations : value := VDict [].

(** [PlexMCP.tool]: the entry point of the base class is called, and the
    decorator handed back applies the two wrappers and then the registrar of
    the base class. *)
Definition PlexMCP_tool (app : FastMCP) (name description annotations : value)
  : SE env (object -> SE env object) :=
  register <- entry app (tool name description (py_or annotations ToolAnnotations)) ;;
  ret (apply_decorators [register; fun f => lift (log_and_handle_errors f)]).

(** [PlexMCP.resource]. *)
Definition PlexMCP_resource (app : FastMCP) (uri name description mime_type : value)
  : SE env (object -> SE env object) :=
  register <- entry app (resource uri name description mime_type) ;;
  ret (apply_decorators [register; fun f => lift (log_and_handle_errors f)]).

(** [PlexMCP.custom_route]. *)
Definition PlexMCP_custom_route (app : FastMCP)
  (path methods name include_in_schema : value)
  : SE env (object -> SE env object) :=
  register <- entry app (custom_route path methods name include_in_schema) ;;
  ret (apply_decorators [register; fun f => lift (log_and_handle_errors f)]).

(** The argument of [validate_port]: an int or a str. *)
Inductive port_argument : Type :=
| PortInt (p : Z)
| PortStr (s : string).

Definition BadParameter (text : string) : exn :=
  PyException "BadParameter" text.

(** [validate_port].  [int_of_str] is the built-in [int] on a string,
    [None] where it raises ValueError. *)
Definition validate_port (int_of_str : string -> option Z)
  (port : port_argument) : outcome Z :=
  match
    match port with
    | PortStr s =>
        match int_of_str s with
        | Some p => Ok p
        | None => Raised (BadParameter (s ++ " is not a valid port number"))
        end
    | PortInt p => Ok p
    end
  with
  | Raised e => Raised e
  | Ok p =>
      if negb ((1024 <=? p)%Z && (p <=? 65535)%Z)
      then Raised (BadParameter
                     "Port must be between 1024 and 65535 (non-privileged range)")
      else Ok p
  end.

(** * Further vocabulary *)

(** The queue of the singleton, empty while it does not exist yet. *)
Definition queue_of (p : program) : list component :=
  match _instance p with
  | Some q => components q
  | None => []
  end.

(** Whether the singleton, if it exists, has no server yet. *)
Definition unbound (p : program) : Prop :=
  match _instance p with
  | Some q => _mcpApp q = None
  | None => True
  end.

(** Declaring the functions of a list one after the other. *)
Definition add_all (l : list component) : SE mstate unit :=
  for_each l (fun c => add c ;; ret tt).

(** Whether two exceptions fall under the same except clause. *)
Definition same_clause (e1 e2 : exn) : bool :=
  match e1, e2 with
  | ConnectError _, ConnectError _ => true
  | TimeoutException _, TimeoutException _ => true
  | HTTPStatusError _ _, HTTPStatusError _ _ => true
  | RequestError _, RequestError _ => true
  | PyException _ _, PyException _ _ => true
  | PyBaseException _ _, PyBaseException _ _ => true
  | _, _ => false
  end.

(** A small echo decorator on strings that fails on the empty string. *)
Definition strict_around (tag : string) (f : string) : SE unit string :=
  if String.eqb f "" then raise (PyException "ValueError" "nothing to wrap")
  else ret (around tag f).

Definition pong : handler :=
  sample "ping" true (AnnText "str") (Ok (VStr "pong")).

Definition cancelled : exn := PyBaseException "CancelledError" "".

Definition bound_to_plex : mstate :=
  {| self := {| components := []; _mcpApp := Some plex_app |};
     outside := quiet |}.

Definition three_tool_objects : mstate :=
  {| self := {| components := [tool_object "a"; tool_object "b";
                               tool_object "c"];
                _mcpApp := None |};
     outside := quiet |}.

(** A parser for the port samples: it knows two strings. *)
Definition sample_int (s : string) : option Z :=
  if String.eqb s "3000" then Some 3000%Z
  else if String.eqb s "80" then Some 80%Z
  else None.

(** A server that refuses every tool. *)
Definition duplicate_tool : exn := PyException "ValueError" "tool already exists".

Definition strict_app : FastMCP :=
  {| server_id := 3;
     refuses := fun ep =>
       match ep with
       | tool _ _ _ => Some duplicate_tool
       | _ => None
       end |}.

(** * Properties *)

(** ** The monad *)

Lemma bind_ret_l {S A B : Type} (a : A) (k : A -> SE S B) (s : S) :
  bind (ret a) k s = k a s.
Proof. reflexivity. Qed.

Lemma bind_assoc {S A B C : Type} (m : SE S A) (k : A -> SE S B)
  (k' : B -> SE S C) (s : S) :
  bind (bind m k) k' s = bind m (fun a => bind (k a) k') s.
Proof.
  unfold bind. destruct (m s) as [[a | e] s']; reflexivity.
Qed.

Lemma bind_ext {S A B : Type} (m : SE S A) (k k' : A -> SE S B) (s : S) :
  (forall a s', k a s' = k' a s') -> bind m k s = bind m k' s.
Proof.
  intros E. unfold bind. destruct (m s) as [[a | e] s']; [apply E | reflexivity].
Qed.

(** ** Decorator composition *)

Section Composition.

Variables S F : Type.

Lemma decorate_app (ds1 ds2 : list (F -> SE S F)) (func : F) (s : S) :
  decorate (ds1 ++ ds2) func s = bind (decorate ds1 func) (decorate ds2) s.
Proof.
  revert func s. induction ds1 as [| d ds1 IH]; intros func s; simpl.
  - reflexivity.
  - rewrite bind_assoc. apply bind_ext. intros a s'. apply IH.
Qed.

(** The wrapper listed last is the first one applied to the function. *)
Lemma apply_decorators_snoc (ds : list (F -> SE S F)) (d : F -> SE S F)
  (func : F) (s : S) :
  apply_decorators (ds ++ [d]) func s
  = bind (d func) (apply_decorators ds) s.
Proof.
  unfold apply_decorators. rewrite rev_app_distr. reflexivity.
Qed.

(** The wrapper listed first is the last one applied. *)
Lemma apply_decorators_cons (d : F -> SE S F) (ds : list (F -> SE S F))
  (func : F) (s : S) :
  apply_decorators (d :: ds) func s
  = bind (apply_decorators ds func) d s.
Proof.
  unfold apply_decorators. simpl. rewrite decorate_app.
  apply bind_ext. intros a s'. simpl. unfold bind.
  destruct (d a s') as [[b | e] s'']; reflexivity.
Qed.

Lemma apply_decorators_pure (ds : list (F -> F)) (func : F) (s : S) :
  apply_decorators (map (@pure_decorator S F) ds) func s
  = (Ok (fold_right (fun d f => d f) func ds), s).
Proof.
  induction ds as [| d ds IH]; simpl.
  - reflexivity.
  - rewrite apply_decorators_cons. unfold bind. rewrite IH. reflexivity.
Qed.

Lemma apply_decorators_two (A B : F -> SE S F) (func : F) (s : S) :
  apply_decorators [A; B] func s = bind (B func) A s.
Proof.
  unfold apply_decorators. simpl. unfold bind.
  destruct (B func s) as [[b | e] s']; [| reflexivity].
  destruct (A b s') as [[c | e] s'']; reflexivity.
Qed.

End Composition.

(** C1, as amended: [apply_decorators(D1, ..., Dn)(H)] is
    [D1(D2(...(Dn(H))))].  The first wrapper of the list is applied last and
    ends up outermost, the last wrapper is applied first and ends up
    innermost; for two wrappers [A] and [B], [apply_decorators(A, B)(H)] is
    [A(B(H))], effects included. *)
Theorem apply_decorators_first_outermost :
  (forall (S F : Type) (ds : list (F -> F)) (H : F) (s : S),
      apply_decorators (map (@pure_decorator S F) ds) H s
      = (Ok (fold_right (fun d f => d f) H ds), s))
  /\ (forall (S F : Type) (A B : F -> SE S F) (H : F) (s : S),
         apply_decorators [A; B] H s = bind (B H) A s).
Proof.
  split.
  - intros. apply apply_decorators_pure.
  - intros. apply apply_decorators_two.
Qed.

(** C1 as stated fails: with [A] and [B] writing their names around what
    they wrap, [apply_decorators(A, B)(H)] is [A(B(H))] and not
    [B(A(H))]. *)
Lemma apply_decorators_last_outermost_fails :
  apply_decorators
    [@pure_decorator unit string (around "A"); pure_decorator (around "B")]
    "H" tt
  = (Ok "A(B(H))", tt)
  /\ around "B" (around "A" "H") = "B(A(H))"
  /\ "A(B(H))" <> "B(A(H))".
Proof.
  repeat split. discriminate.
Qed.

(** As the module composes its own two wrappers: the error normalizer is
    outermost, the instrumentation inside it. *)
Lemma log_and_handle_errors_order (func : object) (w : hworld) :
  log_and_handle_errors func w
  = bind (log_function_call func) handle_api_errors w.
Proof.
  unfold log_and_handle_errors. apply apply_decorators_two.
Qed.

(** ** Instrumentation *)

(** What [log_function_call] builds around a function. *)
Lemma log_function_call_wrapper (h : handler) :
  exists h' : handler,
    (forall w0, log_function_call (Fn h) w0 = (Ok (Fn h'), w0))
    /\ is_coroutine h' = is_coroutine h
    /\ return_annotation h' = return_annotation h
    /\ forall (a : arguments) (w : hworld),
        body h' a w
        = (fst (body h a (emit (pre_record h a) w)),
           emit (post_record h
                   (now (snd (body h a (emit (pre_record h a) w))) - now w))
             (snd (body h a (emit (pre_record h a) w)))).
Proof.
  unfold log_function_call, iscoroutinefunction.
  destruct (is_coroutine h) eqn:E;
    eexists; (split; [intros w0; reflexivity |]);
    (split; [reflexivity |]); (split; [reflexivity |]);
    intros a w; simpl;
    unfold bind, qualified_name, ret, debug, datetime_now, try_finally, call,
      emit, pre_record, post_record; simpl; rewrite E;
    destruct (body h a _) as [r w2]; reflexivity.
Qed.

(** C9: [log_function_call(H)] is a function of the same execution model as
    [H]; one call of it emits the pre-call record (logger [module:name],
    the arguments) before [H] runs, then runs [H], then emits the post-call
    record with the elapsed time, and hands back the outcome of [H]
    unchanged, whether [H] returned or raised. *)
Theorem log_function_call_two_records (h : handler) :
  exists h' : handler,
    (forall w0, log_function_call (Fn h) w0 = (Ok (Fn h'), w0))
    /\ is_coroutine h' = is_coroutine h
    /\ forall (a : arguments) (w : hworld),
        body h' a w
        = (fst (body h a (emit (pre_record h a) w)),
           emit (post_record h
                   (now (snd (body h a (emit (pre_record h a) w))) - now w))
             (snd (body h a (emit (pre_record h a) w)))).
Proof.
  destruct (log_function_call_wrapper h) as (h' & Hwrap & Hco & _ & Hcall).
  exists h'. repeat split; assumption.
Qed.

(** The post-call record is there on the raising path too. *)
Example log_function_call_raising :
  exists h',
    log_function_call
      (Fn (sample "ping" false (AnnText "str") (Raised (RequestError "down"))))
      started = (Ok (Fn h'), started)
    /\ body h' no_arguments started
       = (Raised (RequestError "down"),
          {| now := 5;
             log := [ {| logger := "app.modules.client:ping"; level := DEBUG;
                         msg := Calling false "ping" no_arguments |};
                      note "ran";
                      {| logger := "app.modules.client:ping"; level := DEBUG;
                         msg := Took false "ping" 5 |} ] |}).
Proof. eexists. split; reflexivity. Qed.

(** ** Error normalization *)

(** On a coroutine function nothing runs at wrapping time: the result is a
    coroutine function again. *)
Lemma handle_api_errors_async (h : handler) :
  is_coroutine h = true ->
  exists h' : handler,
    (forall w0, handle_api_errors (Fn h) w0 = (Ok (Fn h'), w0))
    /\ is_coroutine h' = true
    /\ forall a w,
        body h' a w
        = bind (signature_return_annotation (Fn h))
            (fun return_type =>
               try_except (body h a) (except_clauses return_type)) w.
Proof.
  intros E. unfold handle_api_errors, iscoroutinefunction. rewrite E.
  eexists. split; [intros; reflexivity |]. split; reflexivity.
Qed.

(** On a plain function the wrapper is called on the spot, without
    arguments, and its result is what comes back. *)
Lemma handle_api_errors_sync (h : handler) (w : hworld) :
  is_coroutine h = false ->
  handle_api_errors (Fn h) w
  = bind (bind (signature_return_annotation (Fn h))
            (fun return_type =>
               try_except (body h no_arguments) (except_clauses return_type)))
      (fun v => ret (Val v)) w.
Proof.
  intros E. unfold handle_api_errors, iscoroutinefunction. rewrite E.
  reflexivity.
Qed.

(** C2 fails on a blocking handler: wrapping the plain function [ping]
    runs [ping] at once, with no arguments, and yields its return value
    ["pong"], a string, where a callable is due. *)
Theorem handle_api_errors_sync_runs_handler :
  handle_api_errors
    (Fn (sample "ping" false (AnnText "str") (Ok (VStr "pong")))) started
  = (Ok (Val (VStr "pong")), {| now := 5; log := [note "ran"] |}).
Proof. reflexivity. Qed.

Lemma format_error_text {S : Type} (s m : string) (st : S) :
  format_error (AnnText s) m st = (Ok (formatted s m), st).
Proof.
  unfold format_error, formatted.
  destruct (contains "Dict" s); [reflexivity |].
  destruct (contains "List" s); reflexivity.
Qed.

Lemma except_clauses_text (s : string) (e : exn) (w : hworld) :
  is_Exception e = true ->
  except_clauses (AnnText s) e w = (Ok (formatted s (error_message e)), w)
  /\ error_message e <> "".
Proof.
  destruct e; simpl; intros E; try discriminate E;
    (split; [apply format_error_text | discriminate]).
Qed.

(** An exception outside [Exception] passes through the wrapper. *)
Lemma except_clauses_base (ann : annotation) (cls text : string) (w : hworld) :
  except_clauses ann (PyBaseException cls text) w
  = (Raised (PyBaseException cls text), w).
Proof. reflexivity. Qed.

(** C3, as amended: for a coroutine function [H] with a string return
    annotation and an exception [E] under [Exception] raised by [H], the
    wrapper [handle_api_errors(H)] does not raise; it returns a payload
    with a non-empty message: [{"error": message}] when the annotation text
    contains [Dict], [[{"error": message}]] when it contains [List] and not
    [Dict], the message string otherwise. *)
Theorem handle_api_errors_normalizes (h : handler) (s : string)
  (a : arguments) (w w' : hworld) (e : exn) :
  is_coroutine h = true ->
  return_annotation h = Some (AnnText s) ->
  is_Exception e = true ->
  body h a w = (Raised e, w') ->
  exists (h' : handler) (m : string),
    (forall w0, handle_api_errors (Fn h) w0 = (Ok (Fn h'), w0))
    /\ m = error_message e
    /\ m <> ""
    /\ body h' a w
       = (Ok (if contains "Dict" s then VDict [("error", VStr m)]
              else if contains "List" s then VList [VDict [("error", VStr m)]]
              else VStr m), w').
Proof.
  intros Hco Hann Hexc Hbody.
  destruct (handle_api_errors_async h Hco) as (h' & Hwrap & _ & Hcall).
  destruct (except_clauses_text s e w' Hexc) as [Hfmt Hne].
  exists h', (error_message e). split; [exact Hwrap |].
  split; [reflexivity |]. split; [exact Hne |].
  rewrite Hcall. unfold bind, signature_return_annotation. rewrite Hann.
  unfold ret, try_except. rewrite Hbody. exact Hfmt.
Qed.

Lemma handle_api_errors_normalizes_witness :
  exists (h' : handler) (m : string),
    (forall w0, handle_api_errors (Fn failing_search) w0 = (Ok (Fn h'), w0))
    /\ m = "Unexpected error: boom"
    /\ m <> ""
    /\ body h' no_arguments started
       = (Ok (VDict [("error", VStr m)]),
          {| now := 5; log := [note "ran"] |}).
Proof.
  apply (@handle_api_errors_normalizes failing_search "List[Dict[str, Any]]"
           no_arguments started {| now := 5; log := [note "ran"] |}
           (PyException "ValueError" "boom"));
    reflexivity.
Defined.

(** C3 as stated fails: [failing_search] declares a list of dicts, a
    sequence type, and raises ValueError; the wrapper answers with the
    single mapping, which is no one-element sequence whatever the
    message. *)
Lemma sequence_annotation_gets_mapping :
  declared_shape_as_worded "List[Dict[str, Any]]" = Sequence
  /\ (exists h' : handler,
         handle_api_errors (Fn failing_search) started = (Ok (Fn h'), started)
         /\ fst (body h' no_arguments started)
            = Ok (VDict [("error", VStr "Unexpected error: boom")]))
  /\ (forall m : string,
         VDict [("error", VStr "Unexpected error: boom")]
         <> payload_as_worded Sequence m).
Proof.
  split; [reflexivity |]. split.
  - eexists. split; reflexivity.
  - intros m. discriminate.
Qed.

(** Two more ways out of the wrapper that C3 does not foresee: an
    exception outside [Exception] is not caught, and an annotation that is
    a class makes the membership test itself raise. *)
Example handle_api_errors_lets_base_exception_through :
  exists h',
    handle_api_errors
      (Fn (sample "wait" true (AnnText "str")
             (Raised (PyBaseException "CancelledError" ""))))
      started = (Ok (Fn h'), started)
    /\ fst (body h' no_arguments started)
       = Raised (PyBaseException "CancelledError" "").
Proof. eexists. split; reflexivity. Qed.

Example handle_api_errors_class_annotation :
  exists h',
    handle_api_errors
      (Fn (sample "client_list" true (AnnClass "str")
             (Raised (PyException "ValueError" "boom"))))
      started = (Ok (Fn h'), started)
    /\ fst (body h' no_arguments started)
       = Raised (PyException "TypeError"
                   "argument of type 'type' is not iterable").
Proof. eexists. split; reflexivity. Qed.

(** ** The two wrappers together *)

Lemma log_and_handle_errors_async (h : handler) :
  is_coroutine h = true ->
  exists h' : handler,
    (forall w0, log_and_handle_errors (Fn h) w0 = (Ok (Fn h'), w0))
    /\ is_coroutine h' = true
    /\ forall (a : arguments) (w : hworld),
        body h' a w
        = bind (signature_return_annotation (Fn h))
            (fun return_type =>
               try_except
                 (fun w1 =>
                    (fst (body h a (emit (pre_record h a) w1)),
                     emit (post_record h
                             (now (snd (body h a (emit (pre_record h a) w1)))
                              - now w1))
                       (snd (body h a (emit (pre_record h a) w1)))))
                 (except_clauses return_type)) w.
Proof.
  intros Hco.
  destruct (log_function_call_wrapper h) as (hl & Hl & Hlco & Hlann & Hlcall).
  rewrite Hco in Hlco.
  destruct (handle_api_errors_async hl Hlco) as (h' & Hw & Hco' & Hcall).
  exists h'. split; [| split; [exact Hco' |]].
  - intros w0. rewrite log_and_handle_errors_order. unfold bind.
    rewrite Hl. apply Hw.
  - intros a w. rewrite Hcall.
    unfold bind, signature_return_annotation. rewrite Hlann.
    destruct (return_annotation h) as [ann |]; [| reflexivity].
    unfold ret, try_except. rewrite Hlcall. reflexivity.
Qed.

(** C7, as amended: for a coroutine function with a string return
    annotation whose execution raises a connect error, the fully wrapped
    handler does not raise; it returns the message
    ["Connection error: Cannot connect to resource at <url>"] in the shape
    [format_error] picks from the annotation: [{"error": message}],
    [[{"error": message}]] or the message string. *)
Theorem log_and_handle_errors_connect_error (h : handler) (s url : string)
  (a : arguments) (w : hworld) :
  is_coroutine h = true ->
  return_annotation h = Some (AnnText s) ->
  (forall w1, fst (body h a w1) = Raised (ConnectError url)) ->
  exists h' : handler,
    (forall w0, log_and_handle_errors (Fn h) w0 = (Ok (Fn h'), w0))
    /\ fst (body h' a w)
       = Ok (formatted s
               ("Connection error: Cannot connect to resource at " ++ url)).
Proof.
  intros Hco Hann Hraise.
  destruct (log_and_handle_errors_async h Hco) as (h' & Hw & _ & Hcall).
  exists h'. split; [exact Hw |].
  rewrite Hcall. unfold bind, signature_return_annotation. rewrite Hann.
  unfold ret, try_except. rewrite Hraise. unfold except_clauses.
  rewrite format_error_text. reflexivity.
Qed.

Lemma log_and_handle_errors_connect_error_witness :
  exists h' : handler,
    (forall w0, log_and_handle_errors (Fn unreachable_plex) w0
                = (Ok (Fn h'), w0))
    /\ fst (body h' no_arguments started)
       = Ok (VDict
               [("error",
                 VStr "Connection error: Cannot connect to resource at http://plex:32400")]).
Proof.
  apply (@log_and_handle_errors_connect_error unreachable_plex
           "Dict[str, Any]" plex_url no_arguments started);
    reflexivity.
Defined.

(** C7 as stated fails: for [unreachable_plex] the fully wrapped handler
    returns [{"error": message}], not
    [{"status": "error", "message": message}]. *)
Lemma connect_error_payload_has_no_status :
  (exists h' : handler,
      log_and_handle_errors (Fn unreachable_plex) started
      = (Ok (Fn h'), started)
      /\ fst (body h' no_arguments started)
         = Ok (VDict
                 [("error",
                   VStr "Connection error: Cannot connect to resource at http://plex:32400")]))
  /\ VDict
       [("error",
         VStr "Connection error: Cannot connect to resource at http://plex:32400")]
     <> VDict
          [("status", VStr "error");
           ("message",
            VStr "Connection error: Cannot connect to resource at http://plex:32400")].
Proof.
  split.
  - eexists. split; reflexivity.
  - discriminate.
Qed.

(** ** The pending queue *)

Lemma keeps_self_ret {A : Type} (a : A) : keeps_self (ret a).
Proof. intros st. reflexivity. Qed.

Lemma keeps_self_raise {A : Type} (e : exn) : keeps_self (@raise mstate A e).
Proof. intros st. reflexivity. Qed.

Lemma keeps_self_bind {A B : Type} (m : SE mstate A) (k : A -> SE mstate B) :
  keeps_self m -> (forall a, keeps_self (k a)) -> keeps_self (bind m k).
Proof.
  intros Hm Hk st. unfold bind. specialize (Hm st).
  destruct (m st) as [[a | e] st']; simpl in *.
  - rewrite Hk. exact Hm.
  - exact Hm.
Qed.

Lemma keeps_self_outer {A : Type} (m : SE env A) : keeps_self (outer m).
Proof.
  intros st. unfold outer. destruct (m (outside st)). reflexivity.
Qed.

Lemma keeps_self_get_self : keeps_self get_self.
Proof. intros st. reflexivity. Qed.

Lemma keeps_self_getattr (md : metadata) (attr : string) :
  keeps_self (getattr md attr).
Proof.
  intros st. unfold getattr. destruct md as [items | attrs].
  - reflexivity.
  - destruct (lookup attr attrs); reflexivity.
Qed.

Create HintDb keeps.
#[local] Hint Resolve keeps_self_ret keeps_self_raise keeps_self_outer
  keeps_self_get_self keeps_self_getattr : keeps.

Ltac keeps :=
  repeat first
    [ apply keeps_self_bind; [| intros ?]
    | solve [auto with keeps] ].

Lemma _process_component_keeps_self (c : component) :
  keeps_self (_process_component c).
Proof.
  unfold _process_component.
  apply keeps_self_bind; [apply keeps_self_get_self |].
  intros s. destruct (_mcpApp s) as [app |]; [| apply keeps_self_ret].
  destruct (_tool_metadata c) as [md |]; [keeps |].
  destruct (_resource_metadata c) as [md |]; [keeps |].
  destruct (_prompt_metadata c) as [md |]; [keeps |].
  apply keeps_self_ret.
Qed.

Lemma forward_keeps_self (c : component) : keeps_self (forward c).
Proof.
  unfold forward. apply keeps_self_bind.
  - apply _process_component_keeps_self.
  - intros a. apply keeps_self_ret.
Qed.

Lemma for_each_keeps_self (l : list component) : keeps_self (for_each l forward).
Proof.
  induction l as [| c l IH]; simpl.
  - apply keeps_self_ret.
  - apply keeps_self_bind; [apply forward_keeps_self | intros _; exact IH].
Qed.

Lemma for_each_app {S A : Type} (l1 l2 : list A) (f : A -> SE S unit) (s : S) :
  for_each (l1 ++ l2) f s = bind (for_each l1 f) (fun _ => for_each l2 f) s.
Proof.
  revert s. induction l1 as [| x l1 IH]; intros s; simpl.
  - reflexivity.
  - rewrite bind_assoc. apply bind_ext. intros a s'. apply IH.
Qed.

Lemma process_unfold (app : FastMCP) (st : mstate) :
  process app st
  = for_each (components (self st)) forward (bound_and_cleared app st).
Proof. reflexivity. Qed.

Lemma process_self (app : FastMCP) (st : mstate) :
  self (snd (process app st)) = {| components := []; _mcpApp := Some app |}.
Proof.
  rewrite process_unfold. rewrite for_each_keeps_self. reflexivity.
Qed.

(** When bound, [_process_component] never answers with a component. *)
Lemma _process_component_bound (c c' : component) (st : mstate) (app : FastMCP) :
  _mcpApp (self st) = Some app ->
  fst (_process_component c st) <> Ok (Some c').
Proof.
  intros Hb. unfold _process_component.
  unfold bind at 1. unfold get_self. cbv beta iota. rewrite Hb.
  assert (Hstep : forall A (m : SE mstate A)
                    (k : A -> SE mstate (option component)) st0,
             (forall a st1, fst (k a st1) <> Ok (Some c')) ->
             fst (bind m k st0) <> Ok (Some c')).
  { intros A m k st0 Hk. unfold bind.
    destruct (m st0) as [[a | e] st']; [apply Hk | simpl; discriminate]. }
  destruct (_tool_metadata c) as [md |];
    [ repeat (apply Hstep; intros ? ?); simpl; discriminate |].
  destruct (_resource_metadata c) as [md |];
    [ repeat (apply Hstep; intros ? ?); simpl; discriminate |].
  destruct (_prompt_metadata c) as [md |];
    [ repeat (apply Hstep; intros ? ?); simpl; discriminate |].
  simpl. discriminate.
Qed.

(** While bound, [add] never appends: the queue is as before. *)
Lemma add_bound_keeps_queue (c : component) (st : mstate) (app : FastMCP) :
  _mcpApp (self st) = Some app ->
  self (snd (add c st)) = self st.
Proof.
  intros Hb. unfold add, bind.
  pose proof (fun c1 => @_process_component_bound c c1 st app Hb) as Hne.
  pose proof (_process_component_keeps_self c st) as Hk.
  destruct (_process_component c st) as [[[c' |] | e] st']; simpl in *.
  - exfalso. apply (Hne c'). reflexivity.
  - exact Hk.
  - exact Hk.
Qed.

(** ** Draining *)

(** C10: [process] first records the server and empties the queue, and only
    then forwards the snapshot one component after the other.  So when the
    forwarding of some component [d] raises, [process] raises with the queue
    already empty: [get_pending] is empty, the components after [d] are in
    no queue, and no later [process] forwards them or anything else. *)
Theorem process_clears_before_forwarding (app : FastMCP) (st st1 st2 : mstate)
  (before after : list component) (d : component) (e : exn) :
  components (self st) = (before ++ d :: after)%list ->
  for_each before forward (bound_and_cleared app st) = (Ok tt, st1) ->
  forward d st1 = (Raised e, st2) ->
  process app st
  = for_each (before ++ d :: after)%list forward (bound_and_cleared app st)
  /\ process app st = (Raised e, st2)
  /\ get_pending st2 = (Ok [], st2)
  /\ (forall app', process app' st2 = (Ok tt, bound_and_cleared app' st2)).
Proof.
  intros Hq Hbefore Hd.
  assert (Hrun : process app st = (Raised e, st2)).
  { rewrite process_unfold, Hq, for_each_app. unfold bind at 1.
    rewrite Hbefore. simpl. unfold bind at 1. rewrite Hd. reflexivity. }
  assert (Hself : self st2 = {| components := []; _mcpApp := Some app |}).
  { pose proof (process_self app st) as Hs. rewrite Hrun in Hs. exact Hs. }
  split; [rewrite process_unfold, Hq; reflexivity |].
  split; [exact Hrun |].
  split.
  - unfold get_pending, bind, get_self, ret. rewrite Hself. reflexivity.
  - intros app'. rewrite process_unfold, Hself. reflexivity.
Qed.

Lemma process_clears_before_forwarding_witness :
  process plex_app two_declared
  = for_each ([] ++ declared "list_plex_clients"
                 :: [declared "get_client_details"])%list
      forward (bound_and_cleared plex_app two_declared)
  /\ process plex_app two_declared
     = (Raised no_attribute_name, bound_and_cleared plex_app two_declared)
  /\ get_pending (bound_and_cleared plex_app two_declared)
     = (Ok [], bound_and_cleared plex_app two_declared)
  /\ (forall app',
         process app' (bound_and_cleared plex_app two_declared)
         = (Ok tt,
            bound_and_cleared app' (bound_and_cleared plex_app two_declared))).
Proof.
  apply (@process_clears_before_forwarding plex_app two_declared
           (bound_and_cleared plex_app two_declared)
           (bound_and_cleared plex_app two_declared)
           [] [declared "get_client_details"]
           (declared "list_plex_clients") no_attribute_name);
    reflexivity.
Defined.

(** The queue is empty after [process], however it ends. *)
Lemma process_leaves_queue_empty (app : FastMCP) (st : mstate) :
  components (self (snd (process app st))) = [].
Proof. rewrite process_self. reflexivity. Qed.

(** ** The bound server *)

(** C6, as amended: every call of [process(server)] stores its argument as
    the bound server, replacing whatever server was stored before, and
    leaves the queue empty; [add] and [get_pending] leave the stored
    reference as it is, so no operation resets it to the unbound state. *)
Theorem process_stores_given_server (app : FastMCP) (st : mstate) :
  _mcpApp (self (snd (process app st))) = Some app
  /\ components (self (snd (process app st))) = []
  /\ (forall c, _mcpApp (self (snd (add c st))) = _mcpApp (self st))
  /\ _mcpApp (self (snd (get_pending st))) = _mcpApp (self st).
Proof.
  split; [rewrite process_self; reflexivity |].
  split; [rewrite process_self; reflexivity |].
  split; [| reflexivity].
  intros c. unfold add, bind.
  pose proof (_process_component_keeps_self c st) as Hk.
  destruct (_process_component c st) as [[[c' |] | e] st']; simpl in *;
    rewrite Hk; reflexivity.
Qed.

(** C6 as stated fails: after [process(plex_app)] the stored server is
    server 1, and a second [process(other_app)] replaces it by server 2. *)
Lemma second_process_replaces_server :
  option_map server_id (_mcpApp (self (snd (process plex_app fresh)))) = Some 1
  /\ option_map server_id
       (_mcpApp (self (snd (bind (process plex_app)
                              (fun _ => process other_app) fresh))))
     = Some 2.
Proof. split; reflexivity. Qed.

(** ** Forwarding *)

(** A coroutine function whose metadata object has the attributes read is
    forwarded to the entry point of its kind, wrapped, by a server that
    accepts it. *)
Lemma _process_component_forwards (c : component) (st : mstate)
  (app : FastMCP) (ep : entry_point) :
  _mcpApp (self st) = Some app ->
  refuses app ep = None ->
  entry_of c = Some ep ->
  is_coroutine (func c) = true ->
  exists h' : handler,
    (forall w0, log_and_handle_errors (Fn (func c)) w0 = (Ok (Fn h'), w0))
    /\ _process_component c st = (Ok None, forwarded app ep (Fn h') st).
Proof.
  intros Hb Hacc Hep Hco.
  destruct (log_and_handle_errors_async (func c) Hco) as (h' & Hw & _ & _).
  exists h'. split; [exact Hw |].
  unfold _process_component. unfold bind at 1. unfold get_self.
  cbv beta iota. rewrite Hb. unfold entry_of in Hep.
  destruct (_tool_metadata c) as [[items | attrs] |]; try discriminate Hep.
  - destruct (lookup "name" attrs) as [n |] eqn:En; try discriminate Hep.
    destruct (lookup "description" attrs) as [d |] eqn:Ed; try discriminate Hep.
    destruct (lookup "annotations" attrs) as [a |] eqn:Ea; try discriminate Hep.
    injection Hep as <-.
    unfold bind, getattr, ret, outer, entry. rewrite En, Ed, Ea, Hacc.
    cbn [apply_decorators decorate rev List.app outside self]. unfold bind, lift.
    cbn [world]. rewrite Hw. reflexivity.
  - destruct (_resource_metadata c) as [[items | attrs] |]; try discriminate Hep.
    + destruct (lookup "uri" attrs) as [u |] eqn:Eu; try discriminate Hep.
      destruct (lookup "name" attrs) as [n |] eqn:En; try discriminate Hep.
      destruct (lookup "description" attrs) as [d |] eqn:Ed; try discriminate Hep.
      destruct (lookup "mime_type" attrs) as [m |] eqn:Em; try discriminate Hep.
      injection Hep as <-.
      unfold bind, getattr, ret, outer, entry. rewrite Eu, En, Ed, Em, Hacc.
      cbn [apply_decorators decorate rev List.app outside self]. unfold bind, lift.
      cbn [world]. rewrite Hw. reflexivity.
    + destruct (_prompt_metadata c) as [[items | attrs] |]; try discriminate Hep.
      destruct (lookup "name" attrs) as [n |] eqn:En; try discriminate Hep.
      destruct (lookup "description" attrs) as [d |] eqn:Ed; try discriminate Hep.
      destruct (lookup "tags" attrs) as [t |] eqn:Et; try discriminate Hep.
      injection Hep as <-.
      unfold bind, getattr, ret, outer, entry. rewrite En, Ed, Et, Hacc.
      cbn [apply_decorators decorate rev List.app outside self]. unfold bind, lift.
      cbn [world]. rewrite Hw. reflexivity.
Qed.

Lemma for_each_forwards_in_order (app : FastMCP) (l : list component)
  (eps : list entry_point) (st : mstate) :
  _mcpApp (self st) = Some app ->
  Forall2 (forwardable app) l eps ->
  exists st' : mstate,
    for_each l forward st = (Ok tt, st')
    /\ self st' = self st
    /\ world (outside st') = world (outside st)
    /\ invoked (outside st')
       = (invoked (outside st) ++ map (pair (server_id app)) eps)%list
    /\ map fst (registered (outside st'))
       = (map fst (registered (outside st))
          ++ map (pair (server_id app)) eps)%list.
Proof.
  intros Hb Hall. revert st Hb.
  induction Hall as [| c ep l eps (Hep & Hco & Hacc) _ IH]; intros st Hb.
  - exists st. simpl. rewrite !app_nil_r. repeat split; reflexivity.
  - destruct (_process_component_forwards c st Hb Hacc Hep Hco)
      as (h' & _ & Hfwd).
    destruct (IH (forwarded app ep (Fn h') st) Hb)
      as (st' & Hrun & Hself & Hworld & Hinv & Hreg).
    exists st'. split; [| split; [| split; [| split]]].
    + simpl. unfold bind at 1. unfold forward. unfold bind at 1.
      rewrite Hfwd. unfold ret. exact Hrun.
    + rewrite Hself. reflexivity.
    + rewrite Hworld. reflexivity.
    + rewrite Hinv. simpl. rewrite <- app_assoc. reflexivity.
    + rewrite Hreg. simpl. rewrite map_app, <- app_assoc. reflexivity.
Qed.

(** Where every queued component is forwardable, [process] calls the entry
    points in declaration order and registers one object per component, in
    that order. *)
Lemma process_forwards_in_order (app : FastMCP) (st : mstate)
  (eps : list entry_point) :
  Forall2 (forwardable app) (components (self st)) eps ->
  fst (process app st) = Ok tt
  /\ components (self (snd (process app st))) = []
  /\ invoked (outside (snd (process app st)))
     = (invoked (outside st) ++ map (pair (server_id app)) eps)%list
  /\ map fst (registered (outside (snd (process app st))))
     = (map fst (registered (outside st))
        ++ map (pair (server_id app)) eps)%list.
Proof.
  intros Hall.
  destruct (@for_each_forwards_in_order app (components (self st)) eps
              (bound_and_cleared app st) eq_refl Hall)
    as (st' & Hrun & Hself & _ & Hinv & Hreg).
  rewrite process_unfold, Hrun. simpl.
  split; [reflexivity |]. split; [rewrite Hself; reflexivity |].
  split; assumption.
Qed.

Example three_tool_objects_in_order :
  invoked
    (outside
       (snd (process plex_app
               {| self := {| components := [tool_object "a"; tool_object "b";
                                            tool_object "c"];
                             _mcpApp := None |};
                  outside := quiet |})))
  = [ (1, tool (VStr "a") (VStr "a tool") (VDict []));
      (1, tool (VStr "b") (VStr "a tool") (VDict []));
      (1, tool (VStr "c") (VStr "a tool") (VDict [])) ].
Proof. reflexivity. Qed.

(** ** Declarations through the metadata decorators *)

(** C5 fails on a tool declared through [tool_metadata]: after the
    declaration [get_pending] has length 1; [process] then empties the
    queue and raises AttributeError at [component._tool_metadata.name],
    the metadata being a dict; the tool entry point of the server is never
    called. *)
Theorem declared_tool_is_not_registered :
  exists p1 p2 : program,
    declare_tool "list_plex_clients" fresh_program
    = (Ok (declared "list_plex_clients"), p1)
    /\ fst (on_instance get_pending p1) = Ok [declared "list_plex_clients"]
    /\ on_instance (process plex_app) p1 = (Raised no_attribute_name, p2)
    /\ fst (on_instance get_pending p2) = Ok []
    /\ invoked (environment p2) = []
    /\ registered (environment p2) = [].
Proof.
  eexists. eexists. split; [reflexivity |].
  split; [reflexivity |]. split; [reflexivity |].
  repeat split.
Qed.

(** C8 fails on tools declared through [tool_metadata]: three tools are
    queued in declaration order, and [process] raises AttributeError on the
    first of them, so none of the three reaches the server. *)
Theorem declared_tools_are_not_forwarded :
  exists p1 p2 : program,
    declare_three fresh_program = (Ok tt, p1)
    /\ fst (on_instance get_pending p1)
       = Ok [declared "list_plex_clients"; declared "get_client_details";
             declared "get_client_timelines"]
    /\ on_instance (process plex_app) p1 = (Raised no_attribute_name, p2)
    /\ fst (on_instance get_pending p2) = Ok []
    /\ invoked (environment p2) = []
    /\ registered (environment p2) = [].
Proof.
  eexists. eexists. split; [reflexivity |].
  split; [reflexivity |]. split; [reflexivity |].
  repeat split.
Qed.

(** C4 fails on a route: declared through [custom_route_metadata] while the
    queue is bound to [plex_app], the route is not queued, and no entry
    point of the server is called either; [_process_component] has no
    branch for [_custom_route_metadata]. *)
Theorem route_declared_when_bound_is_dropped :
  option_map (fun q => option_map server_id (_mcpApp q))
    (_instance bound_program) = Some (Some 1)
  /\ custom_route_metadata "/health" ["GET"] None true (plain health)
       bound_program
     = (Ok (set_custom_route_metadata "/health" ["GET"] None true
              (plain health)),
        bound_program)
  /\ fst (on_instance get_pending bound_program) = Ok []
  /\ invoked (environment bound_program) = []
  /\ registered (environment bound_program) = [].
Proof. repeat split. Qed.

(** A tool declared through [tool_metadata] while bound is not queued
    either, and is not registered: the declaration raises. *)
Example tool_declared_when_bound_raises :
  declare_tool "list_plex_clients" bound_program
  = (Raised no_attribute_name, bound_program).
Proof. reflexivity. Qed.

(** * Further properties *)

(** ** Composition *)

(** X1: with no wrapper [apply_decorators] hands the function back as it
    is, and on a concatenated list it first applies the later part and then
    the earlier part to the result. *)
Theorem apply_decorators_app (S F : Type) (ds1 ds2 : list (F -> SE S F))
  (func : F) (s : S) :
  apply_decorators [] func s = (Ok func, s)
  /\ apply_decorators (ds1 ++ ds2) func s
     = bind (apply_decorators ds2 func) (apply_decorators ds1) s.
Proof.
  split; [reflexivity |].
  unfold apply_decorators. rewrite rev_app_distr. apply decorate_app.
Qed.

(** X2: when the wrappers listed later (the inner ones) end in an
    exception, the composition raises that exception and none of the
    wrappers listed before them is applied. *)
Theorem apply_decorators_inner_raise (S F : Type)
  (ds1 ds2 : list (F -> SE S F)) (func : F) (s s' : S) (e : exn) :
  apply_decorators ds2 func s = (Raised e, s') ->
  apply_decorators (ds1 ++ ds2) func s = (Raised e, s').
Proof.
  intros Hinner. unfold apply_decorators in *.
  rewrite rev_app_distr, decorate_app. unfold bind. rewrite Hinner.
  reflexivity.
Qed.

Lemma apply_decorators_inner_raise_witness :
  apply_decorators
    ([pure_decorator (around "A")] ++ [strict_around "B"]) "" tt
  = (Raised (PyException "ValueError" "nothing to wrap"), tt).
Proof.
  apply (@apply_decorators_inner_raise unit string
           [pure_decorator (around "A")] [strict_around "B"] "" tt tt
           (PyException "ValueError" "nothing to wrap")).
  reflexivity.
Defined.

(** ** Error normalization, the other exits *)

(** X3: around a coroutine function with a signature, the wrapper of
    [handle_api_errors] returns what the function returns when it returns,
    and leaves the world as the function left it. *)
Theorem handle_api_errors_passes_result (h : handler) (ann : annotation)
  (a : arguments) (w w' : hworld) (v : value) :
  is_coroutine h = true ->
  return_annotation h = Some ann ->
  body h a w = (Ok v, w') ->
  exists h' : handler,
    (forall w0, handle_api_errors (Fn h) w0 = (Ok (Fn h'), w0))
    /\ body h' a w = (Ok v, w').
Proof.
  intros Hco Hann Hbody.
  destruct (handle_api_errors_async h Hco) as (h' & Hwrap & _ & Hcall).
  exists h'. split; [exact Hwrap |].
  rewrite Hcall. unfold bind, signature_return_annotation. rewrite Hann.
  unfold ret, try_except. rewrite Hbody. reflexivity.
Qed.

Lemma handle_api_errors_passes_result_witness :
  exists h' : handler,
    (forall w0, handle_api_errors (Fn pong) w0 = (Ok (Fn h'), w0))
    /\ body h' no_arguments started
       = (Ok (VStr "pong"), {| now := 5; log := [note "ran"] |}).
Proof.
  apply (@handle_api_errors_passes_result pong (AnnText "str") no_arguments
           started {| now := 5; log := [note "ran"] |} (VStr "pong"));
    reflexivity.
Defined.

(** X4: an exception outside [Exception] (a cancellation, a keyboard
    interrupt) raised by a coroutine function goes through the wrapper of
    [handle_api_errors] unchanged, whatever the return annotation. *)
Theorem handle_api_errors_base_exception (h : handler) (ann : annotation)
  (a : arguments) (w w' : hworld) (cls text : string) :
  is_coroutine h = true ->
  return_annotation h = Some ann ->
  body h a w = (Raised (PyBaseException cls text), w') ->
  exists h' : handler,
    (forall w0, handle_api_errors (Fn h) w0 = (Ok (Fn h'), w0))
    /\ body h' a w = (Raised (PyBaseException cls text), w').
Proof.
  intros Hco Hann Hbody.
  destruct (handle_api_errors_async h Hco) as (h' & Hwrap & _ & Hcall).
  exists h'. split; [exact Hwrap |].
  rewrite Hcall. unfold bind, signature_return_annotation. rewrite Hann.
  unfold ret, try_except. rewrite Hbody. reflexivity.
Qed.

Lemma handle_api_errors_base_exception_witness :
  exists h' : handler,
    (forall w0,
        handle_api_errors
          (Fn (sample "wait" true (AnnClass "str") (Raised cancelled))) w0
        = (Ok (Fn h'), w0))
    /\ body h' no_arguments started
       = (Raised cancelled, {| now := 5; log := [note "ran"] |}).
Proof.
  apply (@handle_api_errors_base_exception
           (sample "wait" true (AnnClass "str") (Raised cancelled))
           (AnnClass "str") no_arguments started
           {| now := 5; log := [note "ran"] |} "CancelledError" "");
    reflexivity.
Defined.

(** X5: when the return annotation is a class and not a string, as for
    [-> str], an exception under [Exception] raised by a coroutine function
    is not turned into a payload: the membership test of [format_error]
    raises TypeError, and that is what the wrapper raises. *)
Theorem handle_api_errors_class_annotation_raises (h : handler)
  (cls : string) (a : arguments) (w w' : hworld) (e : exn) :
  is_coroutine h = true ->
  return_annotation h = Some (AnnClass cls) ->
  is_Exception e = true ->
  body h a w = (Raised e, w') ->
  exists h' : handler,
    (forall w0, handle_api_errors (Fn h) w0 = (Ok (Fn h'), w0))
    /\ body h' a w
       = (Raised (PyException "TypeError"
                    "argument of type 'type' is not iterable"), w').
Proof.
  intros Hco Hann Hexc Hbody.
  destruct (handle_api_errors_async h Hco) as (h' & Hwrap & _ & Hcall).
  exists h'. split; [exact Hwrap |].
  rewrite Hcall. unfold bind, signature_return_annotation. rewrite Hann.
  unfold ret, try_except. rewrite Hbody.
  destruct e; try discriminate Hexc; reflexivity.
Qed.

Lemma handle_api_errors_class_annotation_raises_witness :
  exists h' : handler,
    (forall w0,
        handle_api_errors
          (Fn (sample "client_list" true (AnnClass "str")
                 (Raised (ConnectError plex_url)))) w0
        = (Ok (Fn h'), w0))
    /\ body h' no_arguments started
       = (Raised (PyException "TypeError"
                    "argument of type 'type' is not iterable"),
          {| now := 5; log := [note "ran"] |}).
Proof.
  apply (@handle_api_errors_class_annotation_raises
           (sample "client_list" true (AnnClass "str")
              (Raised (ConnectError plex_url)))
           "str" no_arguments started {| now := 5; log := [note "ran"] |}
           (ConnectError plex_url));
    reflexivity.
Defined.



(** X7: around a coroutine function with a signature, the fully wrapped
    handler of [log_and_handle_errors] returns what the function returns
    when it returns; the log holds the pre-call record before the
    function's own records and the post-call record, with the elapsed time,
    after them. *)
Theorem log_and_handle_errors_passes_result (h : handler) (ann : annotation)
  (a : arguments) (w w1 : hworld) (v : value) :
  is_coroutine h = true ->
  return_annotation h = Some ann ->
  body h a (emit (pre_record h a) w) = (Ok v, w1) ->
  exists h' : handler,
    (forall w0, log_and_handle_errors (Fn h) w0 = (Ok (Fn h'), w0))
    /\ body h' a w = (Ok v, emit (post_record h (now w1 - now w)) w1).
Proof.
  intros Hco Hann Hbody.
  destruct (log_and_handle_errors_async h Hco) as (h' & Hwrap & _ & Hcall).
  exists h'. split; [exact Hwrap |].
  rewrite Hcall. unfold bind, signature_return_annotation. rewrite Hann.
  unfold ret, try_except. rewrite Hbody. reflexivity.
Qed.

Lemma log_and_handle_errors_passes_result_witness :
  exists h' : handler,
    (forall w0, log_and_handle_errors (Fn pong) w0 = (Ok (Fn h'), w0))
    /\ body h' no_arguments started
       = (Ok (VStr "pong"),
          emit (post_record pong (5 - 0))
            {| now := 5;
               log := [pre_record pong no_arguments; note "ran"] |}).
Proof.
  apply (@log_and_handle_errors_passes_result pong (AnnText "str")
           no_arguments started
           {| now := 5; log := [pre_record pong no_arguments; note "ran"] |}
           (VStr "pong"));
    reflexivity.
Defined.

(** X18: on a string annotation the payloads of two exceptions under
    [Exception] coincide only if both fall under the same except clause:
    connect, timeout, status, request and other failures get different
    messages. *)
Theorem except_clauses_tell_apart (s : string) (e1 e2 : exn)
  (w1 w2 : hworld) :
  is_Exception e1 = true ->
  is_Exception e2 = true ->
  fst (except_clauses (AnnText s) e1 w1)
  = fst (except_clauses (AnnText s) e2 w2) ->
  same_clause e1 e2 = true.
Proof.
  intros H1 H2 Heq.
  rewrite (proj1 (except_clauses_text s e1 w1 H1)) in Heq.
  rewrite (proj1 (except_clauses_text s e2 w2 H2)) in Heq.
  simpl in Heq.
  assert (Hm : error_message e1 = error_message e2).
  { unfold formatted in Heq.
    destruct (contains "Dict" s); [injection Heq as Heq; exact Heq |].
    destruct (contains "List" s); injection Heq as Heq; exact Heq. }
  destruct e1, e2; simpl in *;
    try reflexivity; try discriminate H1; try discriminate H2;
    discriminate Hm.
Qed.

Lemma except_clauses_tell_apart_witness :
  same_clause (ConnectError plex_url) (ConnectError plex_url) = true.
Proof.
  apply (@except_clauses_tell_apart "Dict[str, Any]"
           (ConnectError plex_url) (ConnectError plex_url) started started);
    reflexivity.
Defined.

(** ** The queue, the other paths *)

Lemma add_unbound (c : component) (st : mstate) :
  _mcpApp (self st) = None ->
  add c st
  = (Ok c,
     {| self := {| components := components (self st) ++ [c];
                   _mcpApp := None |};
        outside := outside st |}).
Proof.
  intros Hb. unfold add, _process_component, bind, get_self, ret,
    set_components.
  rewrite Hb. simpl. rewrite Hb. reflexivity.
Qed.

(** X8: while no server is bound, declaring the functions of a list one
    after the other appends them to the queue in that order, returns
    normally and touches nothing outside the queue. *)
Theorem add_all_unbound (l : list component) (st : mstate) :
  _mcpApp (self st) = None ->
  add_all l st
  = (Ok tt,
     {| self := {| components := components (self st) ++ l;
                   _mcpApp := None |};
        outside := outside st |}).
Proof.
  revert st. induction l as [| c l IH]; intros st Hb.
  - destruct st as [[q m] o]. simpl in *. subst m.
    unfold add_all. simpl. rewrite app_nil_r. reflexivity.
  - unfold add_all in *. simpl. unfold bind at 1. unfold bind at 1.
    rewrite (add_unbound c st Hb). unfold ret at 1.
    rewrite IH; [| reflexivity].
    simpl. rewrite <- app_assoc. reflexivity.
Qed.

Lemma add_all_unbound_witness :
  add_all [declared "list_plex_clients"; tool_object "a"] fresh
  = (Ok tt,
     {| self := {| components := components (self fresh)
                                 ++ [declared "list_plex_clients";
                                     tool_object "a"];
                   _mcpApp := None |};
        outside := outside fresh |}).
Proof.
  apply (@add_all_unbound [declared "list_plex_clients"; tool_object "a"]
           fresh).
  reflexivity.
Defined.

(** X9: once a server is bound, [add] never queues: whatever the component
    and however the call ends, the queue and the bound server are as
    before. *)
Theorem add_bound_never_queues (c : component) (st : mstate) (app : FastMCP) :
  _mcpApp (self st) = Some app ->
  self (snd (add c st)) = self st
  /\ fst (get_pending (snd (add c st))) = Ok (components (self st)).
Proof.
  intros Hb. pose proof (add_bound_keeps_queue c st Hb) as Hk.
  split; [exact Hk |].
  unfold get_pending, bind, get_self, ret. simpl. rewrite Hk. reflexivity.
Qed.

Lemma add_bound_never_queues_witness :
  self (snd (add (tool_object "a") bound_to_plex)) = self bound_to_plex
  /\ fst (get_pending (snd (add (tool_object "a") bound_to_plex)))
     = Ok (components (self bound_to_plex)).
Proof.
  apply (@add_bound_never_queues (tool_object "a") bound_to_plex plex_app).
  reflexivity.
Defined.

(** X10: when every queued component is a coroutine function whose
    metadata object carries the attributes read, and the server accepts
    them, [process] returns normally, leaves the queue empty, calls the
    entry points in declaration order and registers one object per
    component in that order. *)
Theorem process_fifo (app : FastMCP) (st : mstate) (eps : list entry_point) :
  Forall2 (forwardable app) (components (self st)) eps ->
  fst (process app st) = Ok tt
  /\ components (self (snd (process app st))) = []
  /\ invoked (outside (snd (process app st)))
     = (invoked (outside st) ++ map (pair (server_id app)) eps)%list
  /\ map fst (registered (outside (snd (process app st))))
     = (map fst (registered (outside st))
        ++ map (pair (server_id app)) eps)%list.
Proof. apply process_forwards_in_order. Qed.

Lemma process_fifo_witness :
  fst (process plex_app three_tool_objects) = Ok tt
  /\ components (self (snd (process plex_app three_tool_objects))) = []
  /\ invoked (outside (snd (process plex_app three_tool_objects)))
     = (invoked (outside three_tool_objects)
        ++ map (pair (server_id plex_app))
             [tool (VStr "a") (VStr "a tool") (VDict []);
              tool (VStr "b") (VStr "a tool") (VDict []);
              tool (VStr "c") (VStr "a tool") (VDict [])])%list
  /\ map fst (registered (outside (snd (process plex_app three_tool_objects))))
     = (map fst (registered (outside three_tool_objects))
        ++ map (pair (server_id plex_app))
             [tool (VStr "a") (VStr "a tool") (VDict []);
              tool (VStr "b") (VStr "a tool") (VDict []);
              tool (VStr "c") (VStr "a tool") (VDict [])])%list.
Proof.
  apply (@process_fifo plex_app three_tool_objects
           [tool (VStr "a") (VStr "a tool") (VDict []);
            tool (VStr "b") (VStr "a tool") (VDict []);
            tool (VStr "c") (VStr "a tool") (VDict [])]).
  simpl. repeat constructor.
Defined.

(** X11: a function marked by [tool_metadata], [resource_metadata] or
    [prompt_metadata] cannot be forwarded: the decorators store a dict,
    [_process_component] reads attributes, and with a server bound the
    forward step raises AttributeError before any entry point is called,
    leaving everything as it was. *)
Theorem dict_metadata_is_not_forwarded (st : mstate) (app : FastMCP)
  (h : handler) (name description uri : string) (annotations : value)
  (n d m : option string) :
  _mcpApp (self st) = Some app ->
  _process_component
    (set_tool_metadata name description annotations (plain h)) st
  = (Raised (PyException "AttributeError"
               "'dict' object has no attribute 'name'"), st)
  /\ _process_component (set_resource_metadata uri n d m (plain h)) st
     = (Raised (PyException "AttributeError"
                  "'dict' object has no attribute 'uri'"), st)
  /\ _process_component (set_prompt_metadata n d (plain h)) st
     = (Raised (PyException "AttributeError"
                  "'dict' object has no attribute 'name'"), st).
Proof.
  intros Hb. unfold _process_component.
  repeat split; unfold bind at 1; unfold get_self; cbv beta iota;
    rewrite Hb; reflexivity.
Qed.

Lemma dict_metadata_is_not_forwarded_witness :
  _process_component
    (set_tool_metadata "t" "a tool" VNone (plain pong)) bound_to_plex
  = (Raised (PyException "AttributeError"
               "'dict' object has no attribute 'name'"), bound_to_plex)
  /\ _process_component
       (set_resource_metadata "plex://clients" None None None (plain pong))
       bound_to_plex
     = (Raised (PyException "AttributeError"
                  "'dict' object has no attribute 'uri'"), bound_to_plex)
  /\ _process_component (set_prompt_metadata None None (plain pong))
       bound_to_plex
     = (Raised (PyException "AttributeError"
                  "'dict' object has no attribute 'name'"), bound_to_plex).
Proof.
  apply (@dict_metadata_is_not_forwarded bound_to_plex plex_app pong
           "t" "a tool" "plex://clients" VNone None None None).
  reflexivity.
Defined.

(** X12: with a server bound, a component that carries none of the tool,
    resource and prompt metadata, a route or an unmarked function, is
    dropped without a trace: the forward step returns None, no entry point
    is called, and [add] returns the function without queueing it. *)
Theorem unmarked_component_is_dropped (c : component) (st : mstate)
  (app : FastMCP) :
  _mcpApp (self st) = Some app ->
  _tool_metadata c = None ->
  _resource_metadata c = None ->
  _prompt_metadata c = None ->
  _process_component c st = (Ok None, st)
  /\ add c st = (Ok c, st).
Proof.
  intros Hb Ht Hr Hp.
  assert (H : _process_component c st = (Ok None, st)).
  { unfold _process_component. unfold bind at 1. unfold get_self.
    cbv beta iota. rewrite Hb, Ht, Hr, Hp. reflexivity. }
  split; [exact H |].
  unfold add, bind. rewrite H. reflexivity.
Qed.

Lemma unmarked_component_is_dropped_witness :
  _process_component
    (set_custom_route_metadata "/health" ["GET"] None true (plain health))
    bound_to_plex
  = (Ok None, bound_to_plex)
  /\ add (set_custom_route_metadata "/health" ["GET"] None true (plain health))
       bound_to_plex
     = (Ok (set_custom_route_metadata "/health" ["GET"] None true
              (plain health)),
        bound_to_plex).
Proof.
  apply (@unmarked_component_is_dropped
           (set_custom_route_metadata "/health" ["GET"] None true
              (plain health))
           bound_to_plex plex_app);
    reflexivity.
Defined.

(** X13: nothing is flushed twice.  A [process] that follows a [process],
    however the first one ended, finds the queue empty: it returns
    normally, calls no entry point, registers nothing and only records its
    own server. *)
Theorem second_process_forwards_nothing (app1 app2 : FastMCP) (st : mstate) :
  process app2 (snd (process app1 st))
  = (Ok tt,
     {| self := {| components := []; _mcpApp := Some app2 |};
        outside := outside (snd (process app1 st)) |}).
Proof.
  rewrite (process_unfold app2). rewrite process_self. reflexivity.
Qed.

(** ** The singleton *)

(** X14: [instance()] is idempotent: the first call creates the singleton
    when there is none, every further call returns the same object and
    changes nothing; the environment is never touched. *)
Theorem instance_idempotent (p : program) :
  exists q : PendingMCPComponents,
    instance p
    = (Ok q, {| _instance := Some q; environment := environment p |})
    /\ instance {| _instance := Some q; environment := environment p |}
       = (Ok q, {| _instance := Some q; environment := environment p |})
    /\ (_instance p = None -> q = __init__)
    /\ (forall q0, _instance p = Some q0 -> q = q0).
Proof.
  destruct p as [[q0 |] e]; unfold instance; simpl.
  - exists q0. repeat split; try reflexivity.
    + intros H. discriminate H.
    + intros q1 H. injection H as ->. reflexivity.
  - exists __init__. repeat split; try reflexivity.
    intros q1 H. discriminate H.
Qed.

(** X15: while the singleton has no server, or does not exist yet,
    [add_pending] creates it if need be, appends the function at the end of
    its queue and returns the function it was given; nothing outside the
    queue changes. *)
Theorem add_pending_unbound (fn : component) (p : program) :
  unbound p ->
  add_pending fn p
  = (Ok fn,
     {| _instance := Some {| components := queue_of p ++ [fn];
                             _mcpApp := None |};
        environment := environment p |}).
Proof.
  intros Hu. unfold add_pending, bind, on_instance, instance, unbound,
    queue_of in *.
  destruct (_instance p) as [q |] eqn:E.
  - rewrite add_unbound; [reflexivity | exact Hu].
  - rewrite add_unbound; reflexivity.
Qed.

Lemma add_pending_unbound_witness :
  add_pending (declared "list_plex_clients") fresh_program
  = (Ok (declared "list_plex_clients"),
     {| _instance := Some {| components := queue_of fresh_program
                                           ++ [declared "list_plex_clients"];
                             _mcpApp := None |};
        environment := environment fresh_program |}).
Proof.
  apply (@add_pending_unbound (declared "list_plex_clients") fresh_program).
  exact I.
Defined.

(** ** app/main.py *)

(** X16: [PlexMCP.tool] on a coroutine function and a server that accepts
    the tool: the entry point of the base class is called once, with
    [ToolAnnotations()] in place of missing annotations, and what is
    registered and returned is the function wrapped by
    [log_and_handle_errors]; nothing is logged and the function does not
    run. *)
Theorem PlexMCP_tool_registers_wrapped (app : FastMCP)
  (name description annotations : value) (h : handler) (e : env) :
  is_coroutine h = true ->
  refuses app (tool name description (py_or annotations ToolAnnotations))
  = None ->
  exists h' : handler,
    (forall w0, log_and_handle_errors (Fn h) w0 = (Ok (Fn h'), w0))
    /\ bind (PlexMCP_tool app name description annotations)
         (fun decorator => decorator (Fn h)) e
       = (Ok (Fn h'),
          {| world := world e;
             invoked :=
               invoked e
               ++ [(server_id app,
                    tool name description (py_or annotations ToolAnnotations))];
             registered :=
               registered e
               ++ [(server_id app,
                    tool name description (py_or annotations ToolAnnotations),
                    Fn h')] |}).
Proof.
  intros Hco Hacc.
  destruct (log_and_handle_errors_async h Hco) as (h' & Hw & _ & _).
  exists h'. split; [exact Hw |].
  unfold PlexMCP_tool, bind, entry, ret. rewrite Hacc.
  cbn [apply_decorators decorate rev List.app]. unfold bind, lift.
  cbn [world]. rewrite Hw. reflexivity.
Qed.

Lemma PlexMCP_tool_registers_wrapped_witness :
  exists h' : handler,
    (forall w0, log_and_handle_errors (Fn pong) w0 = (Ok (Fn h'), w0))
    /\ bind (PlexMCP_tool plex_app (VStr "ping") (VStr "a tool") VNone)
         (fun decorator => decorator (Fn pong)) quiet
       = (Ok (Fn h'),
          {| world := world quiet;
             invoked :=
               invoked quiet
               ++ [(server_id plex_app,
                    tool (VStr "ping") (VStr "a tool")
                      (py_or VNone ToolAnnotations))];
             registered :=
               registered quiet
               ++ [(server_id plex_app,
                    tool (VStr "ping") (VStr "a tool")
                      (py_or VNone ToolAnnotations),
                    Fn h')] |}).
Proof.
  apply (@PlexMCP_tool_registers_wrapped plex_app (VStr "ping")
           (VStr "a tool") VNone pong quiet);
    reflexivity.
Defined.

(** X17: whatever [validate_port] returns lies between 1024 and 65535;
    for a string it is the integer the string reads as, for an integer the
    integer itself, and validating the result again returns it. *)
Theorem validate_port_range (int_of_str : string -> option Z)
  (port : port_argument) (p : Z) :
  validate_port int_of_str port = Ok p ->
  (1024 <= p <= 65535)%Z
  /\ match port with
     | PortInt q => q = p
     | PortStr s => int_of_str s = Some p
     end
  /\ validate_port int_of_str (PortInt p) = Ok p.
Proof.
  unfold validate_port. intros H.
  assert (Hgen : forall q,
             (if negb ((1024 <=? q)%Z && (q <=? 65535)%Z)
              then Raised (BadParameter
                     "Port must be between 1024 and 65535 (non-privileged range)")
              else Ok q) = Ok p ->
             q = p /\ (1024 <= p <= 65535)%Z
             /\ (if negb ((1024 <=? p)%Z && (p <=? 65535)%Z)
                 then Raised (BadParameter
                     "Port must be between 1024 and 65535 (non-privileged range)")
                 else Ok p) = Ok p).
  { intros q Hq.
    destruct ((1024 <=? q)%Z && (q <=? 65535)%Z) eqn:E; simpl in Hq;
      [| discriminate Hq].
    injection Hq as ->. rewrite E. simpl.
    apply andb_true_iff in E. destruct E as [E1 E2].
    apply Z.leb_le in E1. apply Z.leb_le in E2.
    repeat split; assumption. }
  destruct port as [q | s].
  - destruct (Hgen q H) as (-> & Hr & Hi). repeat split; try apply Hr.
    exact Hi.
  - destruct (int_of_str s) as [q |]; [| discriminate H].
    destruct (Hgen q H) as (-> & Hr & Hi). repeat split; try apply Hr.
    exact Hi.
Qed.

Lemma validate_port_range_witness :
  (1024 <= 3000 <= 65535)%Z
  /\ sample_int "3000" = Some 3000%Z
  /\ validate_port sample_int (PortInt 3000) = Ok 3000%Z.
Proof.
  apply (@validate_port_range sample_int (PortStr "3000") 3000).
  reflexivity.
Defined.

(** X19: [validate_port] refuses what is out of range or unreadable with
    BadParameter: every integer below 1024 or above 65535, and every string
    that does not read as an integer. *)
Theorem validate_port_refuses (int_of_str : string -> option Z)
  (port : port_argument) :
  match port with
  | PortInt q => (q < 1024 \/ 65535 < q)%Z
  | PortStr s =>
      int_of_str s = None
      \/ exists q, int_of_str s = Some q /\ (q < 1024 \/ 65535 < q)%Z
  end ->
  exists text : string,
    validate_port int_of_str port = Raised (BadParameter text).
Proof.
  assert (Hout : forall q, (q < 1024 \/ 65535 < q)%Z ->
                   negb ((1024 <=? q)%Z && (q <=? 65535)%Z) = true).
  { intros q Hq. apply negb_true_iff, andb_false_iff.
    destruct Hq as [Hq | Hq]; [left | right]; apply Z.leb_gt; exact Hq. }
  unfold validate_port. destruct port as [q | s]; intros H.
  - rewrite (Hout q H). eexists. reflexivity.
  - destruct H as [H | (q & H & Hq)]; rewrite H.
    + eexists. reflexivity.
    + rewrite (Hout q Hq). eexists. reflexivity.
Qed.

Lemma validate_port_refuses_witness :
  exists text : string,
    validate_port sample_int (PortStr "80") = Raised (BadParameter text).
Proof.
  apply (@validate_port_refuses sample_int (PortStr "80")).
  right. exists 80%Z. split; [reflexivity |]. left. reflexivity.
Defined.

(** ** Registration-time failures *)

(** X20: a refusal by the server is not swallowed.  With a server bound
    that refuses the entry point of a component, the forward step raises
    the server's exception after the one call to the entry point; nothing
    is registered, the function is neither wrapped nor run, and [add]
    raises the same exception without queueing the function. *)
Theorem refusal_propagates (c : component) (st : mstate) (app : FastMCP)
  (ep : entry_point) (err : exn) :
  _mcpApp (self st) = Some app ->
  entry_of c = Some ep ->
  refuses app ep = Some err ->
  _process_component c st
  = (Raised err,
     {| self := self st;
        outside :=
          {| world := world (outside st);
             invoked := invoked (outside st) ++ [(server_id app, ep)];
             registered := registered (outside st) |} |})
  /\ fst (add c st) = Raised err
  /\ self (snd (add c st)) = self st.
Proof.
  intros Hb Hep Hrej.
  assert (H : _process_component c st
              = (Raised err,
                 {| self := self st;
                    outside :=
                      {| world := world (outside st);
                         invoked := invoked (outside st) ++ [(server_id app, ep)];
                         registered := registered (outside st) |} |})).
  { unfold _process_component. unfold bind at 1. unfold get_self.
    cbv beta iota. rewrite Hb. unfold entry_of in Hep.
    destruct (_tool_metadata c) as [[items | attrs] |]; try discriminate Hep.
    - destruct (lookup "name" attrs) as [n |] eqn:En; try discriminate Hep.
      destruct (lookup "description" attrs) as [d |] eqn:Ed;
        try discriminate Hep.
      destruct (lookup "annotations" attrs) as [a |] eqn:Ea;
        try discriminate Hep.
      injection Hep as <-.
      unfold bind, getattr, ret, outer, entry. rewrite En, Ed, Ea, Hrej.
      reflexivity.
    - destruct (_resource_metadata c) as [[items | attrs] |];
        try discriminate Hep.
      + destruct (lookup "uri" attrs) as [u |] eqn:Eu; try discriminate Hep.
        destruct (lookup "name" attrs) as [n |] eqn:En; try discriminate Hep.
        destruct (lookup "description" attrs) as [d |] eqn:Ed;
          try discriminate Hep.
        destruct (lookup "mime_type" attrs) as [m |] eqn:Em;
          try discriminate Hep.
        injection Hep as <-.
        unfold bind, getattr, ret, outer, entry. rewrite Eu, En, Ed, Em, Hrej.
        reflexivity.
      + destruct (_prompt_metadata c) as [[items | attrs] |];
          try discriminate Hep.
        destruct (lookup "name" attrs) as [n |] eqn:En; try discriminate Hep.
        destruct (lookup "description" attrs) as [d |] eqn:Ed;
          try discriminate Hep.
        destruct (lookup "tags" attrs) as [t |] eqn:Et; try discriminate Hep.
        injection Hep as <-.
        unfold bind, getattr, ret, outer, entry. rewrite En, Ed, Et, Hrej.
        reflexivity. }
  split; [exact H |].
  unfold add, bind. rewrite H. split; reflexivity.
Qed.

Lemma refusal_propagates_witness :
  _process_component (tool_object "a")
    {| self := {| components := []; _mcpApp := Some strict_app |};
       outside := quiet |}
  = (Raised duplicate_tool,
     {| self := {| components := []; _mcpApp := Some strict_app |};
        outside :=
          {| world := world quiet;
             invoked :=
               invoked quiet
               ++ [(server_id strict_app,
                    tool (VStr "a") (VStr "a tool") (VDict []))];
             registered := registered quiet |} |})
  /\ fst (add (tool_object "a")
            {| self := {| components := []; _mcpApp := Some strict_app |};
               outside := quiet |})
     = Raised duplicate_tool
  /\ self (snd (add (tool_object "a")
                  {| self := {| components := []; _mcpApp := Some strict_app |};
                     outside := quiet |}))
     = {| components := []; _mcpApp := Some strict_app |}.
Proof.
  apply (@refusal_propagates (tool_object "a")
           {| self := {| components := []; _mcpApp := Some strict_app |};
              outside := quiet |}
           strict_app (tool (VStr "a") (VStr "a tool") (VDict []))
           duplicate_tool);
    reflexivity.
Defined.

(** ** Blocking functions under both wrappers *)

(** X21: [log_and_handle_errors] on a function that is not a coroutine
    function runs it on the spot, without arguments and under the
    instrumentation: the pre-call record, the function, the post-call
    record; what comes back is the value the function returned, not a
    function. *)
Theorem log_and_handle_errors_sync_runs (h : handler) (ann : annotation)
  (w w1 : hworld) (v : value) :
  is_coroutine h = false ->
  return_annotation h = Some ann ->
  body h no_arguments (emit (pre_record h no_arguments) w) = (Ok v, w1) ->
  log_and_handle_errors (Fn h) w
  = (Ok (Val v), emit (post_record h (now w1 - now w)) w1).
Proof.
  intros Hco Hann Hbody.
  destruct (log_function_call_wrapper h) as (hl & Hl & Hlco & Hlann & Hlcall).
  rewrite Hco in Hlco. rewrite Hann in Hlann.
  rewrite log_and_handle_errors_order. unfold bind at 1. rewrite Hl.
  rewrite (handle_api_errors_sync hl w Hlco).
  unfold bind, signature_return_annotation. rewrite Hlann.
  unfold ret, try_except. rewrite Hlcall, Hbody. reflexivity.
Qed.

Lemma log_and_handle_errors_sync_runs_witness :
  log_and_handle_errors
    (Fn (sample "ping" false (AnnText "str") (Ok (VStr "pong")))) started
  = (Ok (Val (VStr "pong")),
     emit (post_record (sample "ping" false (AnnText "str") (Ok (VStr "pong")))
             (5 - 0))
       {| now := 5;
          log := [pre_record
                    (sample "ping" false (AnnText "str") (Ok (VStr "pong")))
                    no_arguments;
                  note "ran"] |}).
Proof.
  apply (@log_and_handle_errors_sync_runs
           (sample "ping" false (AnnText "str") (Ok (VStr "pong")))
           (AnnText "str") started
           {| now := 5;
              log := [pre_record
                        (sample "ping" false (AnnText "str") (Ok (VStr "pong")))
                        no_arguments;
                      note "ran"] |}
           (VStr "pong"));
    reflexivity.
Defined.
